(** * auria-plugin: a shallow embedding of [src/src/lib.rs]

    The registry is a [HashMap<String, PluginEntry>] behind a tokio
    [RwLock]; it is modelled as a [gmap string PluginEntry].  Every
    critical section of the source (one [read().await] or
    [write().await] guard) becomes one pure function on the store.
    [register] takes two guards in the source (a read guard for the
    duplicate check, then a write guard for the insert); the sequential
    embedding runs them back to back, and [Module Interleaving] below
    runs them as two separate atomic steps of a thread. *)

From stdpp Require Import base gmap strings list fin_maps.
From Stdlib Require Import String Ascii.

Open Scope string_scope.

(** ** Results and errors *)

(** [auria_core::AuriaError]: the only variant this crate builds is
    [ExecutionError(String)]. *)
Inductive AuriaError :=
| ExecutionError (msg : string).

(** [AuriaResult<T> = Result<T, AuriaError>]. *)
Inductive AuriaResult (A : Type) :=
| Ok (a : A)
| Err (e : AuriaError).
Arguments Ok {A} a.
Arguments Err {A} e.

(** ** Data model *)

(** [enum PluginType] with [#[derive(PartialEq, Eq)]]. *)
Inductive PluginType :=
| Backend
| Router
| Middleware
| Storage
| Security
| Monitoring
| Custom (label : string).

(** The derived [PartialEq::eq] of [PluginType]: same constructor, and
    for [Custom] the same label. *)
Definition plugin_type_eq (a b : PluginType) : bool :=
  match a, b with
  | Backend, Backend | Router, Router | Middleware, Middleware
  | Storage, Storage | Security, Security | Monitoring, Monitoring => true
  | Custom x, Custom y => String.eqb x y
  | _, _ => false
  end.

(** [struct PluginHooks] with [#[derive(Default)]]. *)
Record PluginHooks := {
  pre_execution : bool;
  post_execution : bool;
  pre_routing : bool;
  post_routing : bool;
  on_error : bool;
  on_request : bool;
  on_response : bool;
}.

(** [PluginHooks::all]. *)
Definition hooks_all : PluginHooks :=
  {| pre_execution := true; post_execution := true; pre_routing := true;
     post_routing := true; on_error := true; on_request := true;
     on_response := true |}.

(** [PluginHooks::none] = [Self::default()]: every [bool] is [false]. *)
Definition hooks_none : PluginHooks :=
  {| pre_execution := false; post_execution := false; pre_routing := false;
     post_routing := false; on_error := false; on_request := false;
     on_response := false |}.

Module PluginMetadata.
(** [struct PluginMetadata]; [loaded_at : u64] as [N]. *)
Record t := {
  name : string;
  version : string;
  plugin_type : PluginType;
  description : string;
  author : string;
  dependencies : list string;
  hooks : PluginHooks;
  enabled : bool;
  loaded_at : N;
}.

(** [PluginMetadata::new].  [now] is the value of
    [SystemTime::now().duration_since(UNIX_EPOCH).unwrap().as_secs()]
    read by the call. *)
Definition new (name version : string) (plugin_type : PluginType)
    (now : N) : t :=
  {| name := name; version := version; plugin_type := plugin_type;
     description := ""; author := ""; dependencies := [];
     hooks := hooks_none; enabled := true; loaded_at := now |}.

(** [entry.metadata.enabled = b]: the only field the registry writes
    after creation. *)
Definition set_enabled (b : bool) (m : t) : t :=
  {| name := name m; version := version m; plugin_type := plugin_type m;
     description := description m; author := author m;
     dependencies := dependencies m; hooks := hooks m; enabled := b;
     loaded_at := loaded_at m |}.
End PluginMetadata.

Module PluginInfo.
(** [struct PluginInfo]. *)
Record t := {
  name : string;
  version : string;
  plugin_type : PluginType;
  enabled : bool;
}.

(** The [PluginInfo { .. }] literal built from an entry's metadata in
    [list_plugins], [list_by_type] and [get_plugin_info]. *)
Definition of_metadata (m : PluginMetadata.t) : t :=
  {| name := PluginMetadata.name m; version := PluginMetadata.version m;
     plugin_type := PluginMetadata.plugin_type m;
     enabled := PluginMetadata.enabled m |}.
End PluginInfo.

Module Plugin.
(** A value implementing [trait Plugin]: the three accessors, and the
    outcome each async hook reports when it is awaited. *)
Record t := {
  name : string;
  version : string;
  plugin_type : PluginType;
  initialize : AuriaResult unit;
  shutdown : AuriaResult unit;
}.
End Plugin.

(** [struct PluginEntry { metadata }]: the entry holds the metadata
    only, not the plugin object. *)
Record PluginEntry := { metadata : PluginMetadata.t }.

(** The contents of [PluginRegistry::plugins]. *)
Abbreviation store := (gmap string PluginEntry).

(** ** PluginRegistry *)

Definition already_registered_msg (name : string) : string :=
  String.append "Plugin " (String.append name " already registered").

Definition not_found_msg (name : string) : string :=
  String.append "Plugin " (String.append name " not found").

(** [register], read-guard section: [contains_key(&name)]. *)
Definition register_check (name : string) (s : store) : bool :=
  match s !! name with Some _ => true | None => false end.

(** [register], write-guard section: [insert(name, PluginEntry {metadata})]
    (HashMap::insert replaces an existing value). *)
Definition register_insert (p : Plugin.t) (now : N) (s : store) : store :=
  let name := Plugin.name p in
  let md := PluginMetadata.new name (Plugin.version p) (Plugin.plugin_type p) now in
  <[name := {| metadata := md |}]> s.

(** [PluginRegistry::register], both sections run back to back. *)
Definition register (p : Plugin.t) (now : N) (s : store)
    : AuriaResult unit * store :=
  let name := Plugin.name p in
  if register_check name s
  then (Err (ExecutionError (already_registered_msg name)), s)
  else (Ok tt, register_insert p now s).

(** [PluginRegistry::unregister]: [remove(name).map(|e| e.metadata)]. *)
Definition unregister (name : string) (s : store)
    : option PluginMetadata.t * store :=
  (metadata <$> s !! name, delete name s).

(** [PluginRegistry::get_metadata]. *)
Definition get_metadata (name : string) (s : store) : option PluginMetadata.t :=
  metadata <$> s !! name.

(** [HashMap::values()]: the iteration order of a [HashMap] is
    unspecified; the model uses the order of [map_to_list]. *)
Definition values (s : store) : list PluginEntry := snd <$> map_to_list s.

(** [PluginRegistry::list_plugins]. *)
Definition list_plugins (s : store) : list PluginInfo.t :=
  (fun e => PluginInfo.of_metadata (metadata e)) <$> values s.

(** [PluginRegistry::list_by_type]. *)
Definition list_by_type (plugin_type : PluginType) (s : store)
    : list PluginInfo.t :=
  (fun e => PluginInfo.of_metadata (metadata e)) <$>
    filter (fun e => plugin_type_eq (PluginMetadata.plugin_type (metadata e))
                                    plugin_type = true) (values s).

(** [PluginRegistry::enable]. *)
Definition enable (name : string) (s : store) : AuriaResult unit * store :=
  match s !! name with
  | Some e =>
      (Ok tt, <[name := {| metadata := PluginMetadata.set_enabled true (metadata e) |}]> s)
  | None => (Err (ExecutionError (not_found_msg name)), s)
  end.

(** [PluginRegistry::disable]. *)
Definition disable (name : string) (s : store) : AuriaResult unit * store :=
  match s !! name with
  | Some e =>
      (Ok tt, <[name := {| metadata := PluginMetadata.set_enabled false (metadata e) |}]> s)
  | None => (Err (ExecutionError (not_found_msg name)), s)
  end.

(** [PluginRegistry::is_enabled]: [.map(|e| e.metadata.enabled).unwrap_or(false)]. *)
Definition is_enabled (name : string) (s : store) : bool :=
  match s !! name with
  | Some e => PluginMetadata.enabled (metadata e)
  | None => false
  end.

(** ** Discovery: [PluginManager::load_plugins_from_dir] *)

(** The last ['.'] of a file name: [Some (before, after)], or [None]
    when there is no dot. *)
Fixpoint rsplit_dot (s : string) : option (string * string) :=
  match s with
  | EmptyString => None
  | String c rest =>
      match rsplit_dot rest with
      | Some (before, after) => Some (String c before, after)
      | None => if Ascii.eqb c "." then Some ("", rest) else None
      end
  end.

(** [Path::extension] on a file name ([rsplit_file_at_dot] of std):
    [None] for [".."], for a name without a dot, and for a name whose
    only dot is its first character; otherwise the text after the last
    dot. *)
Definition file_extension (file : string) : option string :=
  if String.eqb file ".." then None
  else match rsplit_dot file with
       | None => None
       | Some (before, after) => if String.eqb before "" then None else Some after
       end.

(** [path.extension().map_or(false, |e| e == "so" || e == "dll" || e == "dylib")]. *)
Definition is_native_lib (file : string) : bool :=
  match file_extension file with
  | Some e => String.eqb e "so" || String.eqb e "dll" || String.eqb e "dylib"
  | None => false
  end.

(** What the filesystem answers for one path: [dir.exists()], and
    [std::fs::read_dir(dir)]: [None] for an [Err], otherwise the
    iterator's items, each [Some file_name] for an [Ok] entry or [None]
    for an [Err] item. *)
Record DirState := {
  dir_exists : bool;
  dir_read : option (list (option string));
}.

Abbreviation Fs := (string -> DirState).

(** [entries.flatten()]: the [Err] items are skipped. *)
Fixpoint flatten_entries (es : list (option string)) : list string :=
  match es with
  | [] => []
  | Some f :: rest => f :: flatten_entries rest
  | None :: rest => flatten_entries rest
  end.

(** The [for] loop over the flattened entries, threading [loaded]. *)
Fixpoint count_loop (entries : list string) (loaded : nat) : nat :=
  match entries with
  | [] => loaded
  | f :: rest => count_loop rest (if is_native_lib f then S loaded else loaded)
  end.

Record PluginConfig := {
  plugin_dirs : list string;
  auto_enable : bool;
  enable_hot_reload : bool;
}.

(** [PluginConfig::default]. *)
Definition config_default : PluginConfig :=
  {| plugin_dirs := []; auto_enable := true; enable_hot_reload := false |}.

(** [struct PluginManager]: the registry behind its [Arc], and the config. *)
Record PluginManager := {
  registry : store;
  config : PluginConfig;
}.

(** [PluginManager::new]. *)
Definition manager_new : PluginManager :=
  {| registry := ∅; config := config_default |}.

(** [PluginManager::load_plugins_from_dir]: the body never touches
    [self.registry]. *)
Definition load_plugins_from_dir (fs : Fs) (dir : string) (m : PluginManager)
    : AuriaResult nat * PluginManager :=
  let loaded := 0%nat in
  if negb (dir_exists (fs dir)) then (Ok 0%nat, m)
  else match dir_read (fs dir) with
       | None => (Ok 0%nat, m)
       | Some entries => (Ok (count_loop (flatten_entries entries) loaded), m)
       end.

(** ** PluginManager: the public calls and the plugin hooks they invoke *)

(** An invocation of a plugin's async hook, by plugin name. *)
Inductive HookCall :=
| CallInitialize (name : string)
| CallShutdown (name : string).

(** Every public method of [PluginManager] that touches plugins or the
    registry, and the read-only registry methods reachable through
    [PluginManager::registry()]. *)
Inductive ManagerCall :=
| MRegisterPlugin (p : Plugin.t) (now : N)
| MUnregisterPlugin (name : string)
| MLoadPluginsFromDir (fs : Fs) (dir : string)
| MListPlugins
| MGetPluginInfo (name : string)
| MEnablePlugin (name : string)
| MDisablePlugin (name : string)
| MRegistryGetMetadata (name : string)
| MRegistryListByType (t : PluginType)
| MRegistryIsEnabled (name : string).

Inductive ManagerRet :=
| RUnit (r : AuriaResult unit)
| RMetadata (o : option PluginMetadata.t)
| RCount (r : AuriaResult nat)
| RInfos (l : list PluginInfo.t)
| RInfo (o : option PluginInfo.t)
| RBool (b : bool).

Definition with_registry (m : PluginManager) (s : store) : PluginManager :=
  {| registry := s; config := config m |}.

(** One call: its return value, the manager afterwards, and the hooks
    it awaited, in order.  None of the methods awaits a hook. *)
Definition manager_step (c : ManagerCall) (m : PluginManager)
    : ManagerRet * PluginManager * list HookCall :=
  match c with
  | MRegisterPlugin p now =>
      let '(r, s) := register p now (registry m) in (RUnit r, with_registry m s, [])
  | MUnregisterPlugin n =>
      let '(o, s) := unregister n (registry m) in (RMetadata o, with_registry m s, [])
  | MLoadPluginsFromDir fs dir =>
      let '(r, m') := load_plugins_from_dir fs dir m in (RCount r, m', [])
  | MListPlugins => (RInfos (list_plugins (registry m)), m, [])
  | MGetPluginInfo n =>
      (RInfo (PluginInfo.of_metadata <$> get_metadata n (registry m)), m, [])
  | MEnablePlugin n =>
      let '(r, s) := enable n (registry m) in (RUnit r, with_registry m s, [])
  | MDisablePlugin n =>
      let '(r, s) := disable n (registry m) in (RUnit r, with_registry m s, [])
  | MRegistryGetMetadata n => (RMetadata (get_metadata n (registry m)), m, [])
  | MRegistryListByType t => (RInfos (list_by_type t (registry m)), m, [])
  | MRegistryIsEnabled n => (RBool (is_enabled n (registry m)), m, [])
  end.

(** ** Concurrent [register]: the two guards as separate atomic steps *)

Module Interleaving.
(** Where a [register] call is: before the read guard, between the
    read guard and the write guard, or returned. *)
Inductive Phase :=
| Start
| Checked
| Done (r : AuriaResult unit).

Record Thread := {
  plugin : Plugin.t;
  now : N;
  phase : Phase;
}.

Definition with_phase (t : Thread) (ph : Phase) : Thread :=
  {| plugin := plugin t; now := now t; phase := ph |}.

(** One critical section of [register], under the lock. *)
Definition step (t : Thread) (s : store) : Thread * store :=
  let name := Plugin.name (plugin t) in
  match phase t with
  | Start =>
      if register_check name s
      then (with_phase t (Done (Err (ExecutionError (already_registered_msg name)))), s)
      else (with_phase t Checked, s)
  | Checked => (with_phase t (Done (Ok tt)), register_insert (plugin t) (now t) s)
  | Done _ => (t, s)
  end.

(** A schedule picks, at each point, the thread whose next critical
    section acquires the lock. *)
Fixpoint run (sched : list nat) (ts : list Thread) (s : store)
    : list Thread * store :=
  match sched with
  | [] => (ts, s)
  | i :: sched' =>
      match ts !! i with
      | Some t => let '(t', s') := step t s in run sched' (<[i := t']> ts) s'
      | None => run sched' ts s
      end
  end.
End Interleaving.

(** ** The plugins of the test module *)

Definition test_plugin (name : string) (t : PluginType) : Plugin.t :=
  {| Plugin.name := name; Plugin.version := "1.0.0"; Plugin.plugin_type := t;
     Plugin.initialize := Ok tt; Plugin.shutdown := Ok tt |}.

(** [TestPlugin] of [test_plugin_registry] and [test_plugin_unregister]. *)
Definition plugin_test : Plugin.t := test_plugin "test" (Custom "test").
(** [BackendTestPlugin] and [RouterTestPlugin] of [test_list_by_type]. *)
Definition backend_test : Plugin.t := test_plugin "backend-test" Backend.
Definition router_test : Plugin.t := test_plugin "router-test" Router.

(** ** Basic facts *)

Global Instance PluginType_eq_dec : EqDecision PluginType.
Proof. solve_decision. Defined.

Lemma plugin_type_eq_true (a b : PluginType) :
  plugin_type_eq a b = true <-> a = b.
Proof.
  destruct a, b; simpl; split; intros H; try congruence.
  - apply String.eqb_eq in H. by subst.
  - apply String.eqb_eq. congruence.
Qed.

Lemma elem_of_values (e : PluginEntry) (s : store) :
  e ∈ values s <-> exists k, s !! k = Some e.
Proof.
  unfold values. rewrite list_elem_of_fmap. split.
  - intros [[k e'] [-> Hin]]. apply elem_of_map_to_list in Hin. by exists k.
  - intros [k Hk]. exists (k, e). split; [done |]. by apply elem_of_map_to_list.
Qed.

Lemma elem_of_list_plugins (i : PluginInfo.t) (s : store) :
  i ∈ list_plugins s <->
  exists k e, s !! k = Some e /\ i = PluginInfo.of_metadata (metadata e).
Proof.
  unfold list_plugins. rewrite list_elem_of_fmap. split.
  - intros [e [-> He]]. apply elem_of_values in He as [k Hk]. eauto.
  - intros (k & e & Hk & ->). exists e. split; [done |].
    apply elem_of_values. eauto.
Qed.

Lemma set_enabled_same (m : PluginMetadata.t) :
  PluginMetadata.set_enabled (PluginMetadata.enabled m) m = m.
Proof. by destruct m. Qed.

(** Every key is the [name] stored in its own entry's metadata. *)
Definition store_wf (s : store) : Prop :=
  map_Forall (fun k e => PluginMetadata.name (metadata e) = k) s.

Lemma store_wf_empty : store_wf ∅.
Proof. apply map_Forall_empty. Qed.

Lemma register_wf (p : Plugin.t) (now : N) (s : store) :
  store_wf s -> store_wf (snd (register p now s)).
Proof.
  intros Hwf. unfold register. destruct (register_check _ _); simpl; [done |].
  unfold register_insert. by apply map_Forall_insert_2.
Qed.

Lemma unregister_wf (n : string) (s : store) :
  store_wf s -> store_wf (snd (unregister n s)).
Proof. intros Hwf. by apply map_Forall_delete. Qed.

Lemma enable_wf (n : string) (s : store) :
  store_wf s -> store_wf (snd (enable n s)).
Proof.
  intros Hwf. unfold enable. destruct (s !! n) as [e|] eqn:He; simpl; [| done].
  apply map_Forall_insert_2; [| done]. simpl. exact (Hwf n e He).
Qed.

Lemma disable_wf (n : string) (s : store) :
  store_wf s -> store_wf (snd (disable n s)).
Proof.
  intros Hwf. unfold disable. destruct (s !! n) as [e|] eqn:He; simpl; [| done].
  apply map_Forall_insert_2; [| done]. simpl. exact (Hwf n e He).
Qed.

(** [load_plugins_from_dir] returns the manager it was given. *)
Lemma load_plugins_from_dir_manager (fs : Fs) (dir : string) (m : PluginManager) :
  (load_plugins_from_dir fs dir m).2 = m.
Proof.
  unfold load_plugins_from_dir.
  destruct (dir_exists (fs dir)); simpl; [| done].
  by destruct (dir_read (fs dir)).
Qed.

(** The invariant holds in every registry a manager reaches. *)
Lemma manager_step_wf (c : ManagerCall) (m : PluginManager) :
  store_wf (registry m) -> store_wf (registry (manager_step c m).1.2).
Proof.
  intros Hwf. destruct c; cbn [manager_step]; try done.
  - pose proof (register_wf p now _ Hwf). by destruct (register p now (registry m)).
  - pose proof (unregister_wf name _ Hwf). by destruct (unregister name (registry m)).
  - pose proof (load_plugins_from_dir_manager fs dir m) as Hm.
    destruct (load_plugins_from_dir fs dir m). simpl in *. by subst.
  - pose proof (enable_wf name _ Hwf). by destruct (enable name (registry m)).
  - pose proof (disable_wf name _ Hwf). by destruct (disable name (registry m)).
Qed.

(** The helper shared by the lifecycle facts: no call awaits a hook. *)
Lemma manager_step_hooks_nil (c : ManagerCall) (m : PluginManager) :
  (manager_step c m).2 = [].
Proof.
  destruct c; cbn [manager_step];
    repeat match goal with |- context [match ?x with (_, _) => _ end] => destruct x end;
    done.
Qed.

(** Run alone, the two steps of a [register] thread are [register]. *)
Lemma interleaving_run_alone (p : Plugin.t) (now : N) (s : store) :
  let '(r, s') := register p now s in
  Interleaving.run [0%nat; 0%nat]
    [{| Interleaving.plugin := p; Interleaving.now := now; Interleaving.phase := Interleaving.Start |}] s
  = ([{| Interleaving.plugin := p; Interleaving.now := now; Interleaving.phase := Interleaving.Done r |}], s').
Proof.
  unfold register. simpl. unfold Interleaving.step. simpl.
  by destruct (register_check (Plugin.name p) s).
Qed.

Example extension_examples :
  is_native_lib "libfoo.so" = true /\ is_native_lib "foo.dll" = true /\
  is_native_lib "a.b.dylib" = true /\ is_native_lib ".so" = false /\
  is_native_lib "foo.SO" = false /\ is_native_lib "foo" = false /\
  is_native_lib "foo.so.1" = false.
Proof. vm_compute. repeat split. Qed.

(** ** Claims about [PluginRegistry] *)

(** A registry holding [plugin_test] with the timestamp [7]. *)
Definition store_test : store := snd (register plugin_test 7 ∅).

(** C1: when the plugin's name already has an entry, [register] returns
    the "already registered" error and the store is unchanged; hence,
    registering the same name twice from a store without it, the second
    call fails and the store keeps the first call's metadata. *)
Theorem register_duplicate_rejected (p q : Plugin.t) (now now' : N) (s : store) :
  is_Some (s !! Plugin.name p) ->
  register p now s = (Err (ExecutionError (already_registered_msg (Plugin.name p))), s) /\
  (Plugin.name q = Plugin.name p ->
   let s1 := snd (register p now (delete (Plugin.name p) s)) in
   register q now' s1 = (Err (ExecutionError (already_registered_msg (Plugin.name p))), s1) /\
   get_metadata (Plugin.name p) s1 =
     Some (PluginMetadata.new (Plugin.name p) (Plugin.version p) (Plugin.plugin_type p) now)).
Proof.
  intros [e He]. split.
  - unfold register, register_check. by rewrite He.
  - intros Hq. simpl.
    unfold register, register_check. rewrite lookup_delete_eq. simpl.
    unfold register_insert. rewrite Hq, lookup_insert_eq. split; [done |].
    unfold get_metadata. by rewrite lookup_insert_eq.
Qed.

Lemma register_duplicate_rejected_witness :
  is_Some (store_test !! "test") /\
  register plugin_test 9 store_test =
    (Err (ExecutionError (already_registered_msg "test")), store_test) /\
  (Plugin.name plugin_test = Plugin.name plugin_test ->
   let s1 := snd (register plugin_test 9 (delete (Plugin.name plugin_test) store_test)) in
   register plugin_test 11 s1 = (Err (ExecutionError (already_registered_msg "test")), s1) /\
   get_metadata "test" s1 = Some (PluginMetadata.new "test" "1.0.0" (Custom "test") 9)).
Proof.
  assert (H : is_Some (store_test !! Plugin.name plugin_test)) by (vm_compute; eauto).
  split; [exact H |].
  exact (register_duplicate_rejected plugin_test plugin_test 9 11 store_test H).
Defined.

(** C4: on a name with no entry, [is_enabled] is [false] while [enable]
    and [disable] return the "not found" error and leave the store
    unchanged; on a name with an entry, [is_enabled] is its stored
    [enabled] flag. *)
Theorem absent_name_is_enabled_false_enable_not_found (n : string) (s : store) :
  s !! n = None ->
  is_enabled n s = false /\
  enable n s = (Err (ExecutionError (not_found_msg n)), s) /\
  disable n s = (Err (ExecutionError (not_found_msg n)), s) /\
  (forall n' e, s !! n' = Some e ->
     is_enabled n' s = PluginMetadata.enabled (metadata e)).
Proof.
  intros Hn. unfold is_enabled, enable, disable. rewrite Hn.
  split_and!; [done | done | done |].
  intros n' e He. by rewrite He.
Qed.

Lemma absent_name_is_enabled_false_enable_not_found_witness :
  store_test !! "missing" = None /\
  is_enabled "missing" store_test = false /\
  enable "missing" store_test = (Err (ExecutionError (not_found_msg "missing")), store_test) /\
  disable "missing" store_test = (Err (ExecutionError (not_found_msg "missing")), store_test) /\
  (forall n' e, store_test !! n' = Some e ->
     is_enabled n' store_test = PluginMetadata.enabled (metadata e)).
Proof.
  assert (H : store_test !! "missing" = None) by reflexivity.
  split; [exact H |].
  exact (absent_name_is_enabled_false_enable_not_found "missing" store_test H).
Defined.

(** C5: on a name with no entry, [register] succeeds and inserts, under
    that name, metadata with the plugin's name, version and category,
    empty description, author and dependencies, no hooks, [enabled =
    true] and [loaded_at] the clock reading; the other entries are kept,
    and the call awaits none of the plugin's hooks. *)
Theorem register_fresh_inserts_default_metadata (p : Plugin.t) (now : N) (m : PluginManager) :
  registry m !! Plugin.name p = None ->
  let md := {| PluginMetadata.name := Plugin.name p;
               PluginMetadata.version := Plugin.version p;
               PluginMetadata.plugin_type := Plugin.plugin_type p;
               PluginMetadata.description := "";
               PluginMetadata.author := "";
               PluginMetadata.dependencies := [];
               PluginMetadata.hooks := hooks_none;
               PluginMetadata.enabled := true;
               PluginMetadata.loaded_at := now |} in
  register p now (registry m) =
    (Ok tt, <[Plugin.name p := {| metadata := md |}]> (registry m)) /\
  manager_step (MRegisterPlugin p now) m =
    (RUnit (Ok tt), with_registry m (<[Plugin.name p := {| metadata := md |}]> (registry m)), []).
Proof.
  intros Hn md.
  assert (Hr : register p now (registry m) =
    (Ok tt, <[Plugin.name p := {| metadata := md |}]> (registry m))).
  { unfold register, register_check. by rewrite Hn. }
  split; [exact Hr |].
  cbn [manager_step]. by rewrite Hr.
Qed.

Lemma register_fresh_inserts_default_metadata_witness :
  registry manager_new !! Plugin.name plugin_test = None /\
  manager_step (MRegisterPlugin plugin_test 42) manager_new =
    (RUnit (Ok tt),
     with_registry manager_new
       {[ "test" := {| metadata := PluginMetadata.new "test" "1.0.0" (Custom "test") 42 |} ]},
     []).
Proof.
  assert (H : registry manager_new !! Plugin.name plugin_test = None) by reflexivity.
  split; [exact H |].
  exact (proj2 (register_fresh_inserts_default_metadata plugin_test 42 manager_new H)).
Defined.

(** C7: [enable] on an entry already enabled, and [disable] on an entry
    already disabled, succeed and leave the store as it was. *)
Theorem enable_disable_idempotent (n : string) (e : PluginEntry) (s : store) :
  s !! n = Some e ->
  (PluginMetadata.enabled (metadata e) = true -> enable n s = (Ok tt, s)) /\
  (PluginMetadata.enabled (metadata e) = false -> disable n s = (Ok tt, s)).
Proof.
  intros He. unfold enable, disable. rewrite He. destruct e as [md]. simpl.
  split; intros Hb; rewrite <- Hb, set_enabled_same; f_equal; by apply insert_id.
Qed.

Lemma enable_disable_idempotent_witness :
  store_test !! "test" = Some {| metadata := PluginMetadata.new "test" "1.0.0" (Custom "test") 7 |} /\
  (true = true -> enable "test" store_test = (Ok tt, store_test)) /\
  (true = false -> disable "test" store_test = (Ok tt, store_test)).
Proof.
  assert (H : store_test !! "test" =
    Some {| metadata := PluginMetadata.new "test" "1.0.0" (Custom "test") 7 |}) by reflexivity.
  split; [exact H |].
  exact (enable_disable_idempotent "test" _ store_test H).
Defined.

(** C10: [register] does not check the name beyond the duplicate test:
    a plugin whose [name()] is [""] is stored under the key [""] when
    that key is free. *)
Theorem register_accepts_empty_name (p : Plugin.t) (now : N) (s : store) :
  Plugin.name p = "" -> s !! "" = None ->
  fst (register p now s) = Ok tt /\
  get_metadata "" (snd (register p now s)) =
    Some (PluginMetadata.new "" (Plugin.version p) (Plugin.plugin_type p) now).
Proof.
  intros Hp Hs. unfold register, register_check. rewrite Hp, Hs. simpl.
  split; [done |]. unfold get_metadata, register_insert. rewrite Hp.
  by rewrite lookup_insert_eq.
Qed.

Lemma register_accepts_empty_name_witness :
  Plugin.name (test_plugin "" Backend) = "" /\ store_test !! "" = None /\
  fst (register (test_plugin "" Backend) 3 store_test) = Ok tt /\
  get_metadata "" (snd (register (test_plugin "" Backend) 3 store_test)) =
    Some (PluginMetadata.new "" "1.0.0" Backend 3).
Proof.
  assert (H1 : Plugin.name (test_plugin "" Backend) = "") by reflexivity.
  assert (H2 : store_test !! "" = None) by reflexivity.
  split; [exact H1 |]. split; [exact H2 |].
  exact (register_accepts_empty_name (test_plugin "" Backend) 3 store_test H1 H2).
Defined.

(** C6: [unregister] returns the entry's metadata when the name has an
    entry and [None] when it has none; afterwards [get_metadata] on the
    name is [None], no [list_plugins] item carries the name (in a store
    whose keys are their entries' names, as every reachable store is:
    [store_wf_empty], [manager_step_wf]), and registering a plugin of
    that name succeeds with fresh default metadata. *)
Theorem unregister_then_fresh_register (n : string) (s : store) (p : Plugin.t) (now : N) :
  store_wf s -> Plugin.name p = n ->
  let '(r, s') := unregister n s in
  (forall e, s !! n = Some e -> r = Some (metadata e)) /\
  (s !! n = None -> r = None) /\
  get_metadata n s' = None /\
  (forall i, i ∈ list_plugins s' -> PluginInfo.name i <> n) /\
  register p now s' =
    (Ok tt, <[n := {| metadata := PluginMetadata.new n (Plugin.version p)
                                     (Plugin.plugin_type p) now |}]> s').
Proof.
  intros Hwf Hp. unfold unregister. split_and!.
  - intros e He. by rewrite He.
  - intros He. by rewrite He.
  - unfold get_metadata. by rewrite lookup_delete_eq.
  - intros i Hi. apply elem_of_list_plugins in Hi as (k & e & Hk & ->).
    apply lookup_delete_Some in Hk as [Hkn Hk].
    simpl. rewrite (Hwf k e Hk). done.
  - unfold register, register_check, register_insert.
    rewrite Hp, lookup_delete_eq. done.
Qed.

Lemma unregister_then_fresh_register_witness :
  store_wf store_test /\ Plugin.name plugin_test = "test" /\
  let '(r, s') := unregister "test" store_test in
  (forall e, store_test !! "test" = Some e -> r = Some (metadata e)) /\
  (store_test !! "test" = None -> r = None) /\
  get_metadata "test" s' = None /\
  (forall i, i ∈ list_plugins s' -> PluginInfo.name i <> "test") /\
  register plugin_test 8 s' =
    (Ok tt, <[ "test" := {| metadata := PluginMetadata.new "test" "1.0.0" (Custom "test") 8 |}]> s').
Proof.
  assert (H1 : store_wf store_test) by (apply register_wf, store_wf_empty).
  assert (H2 : Plugin.name plugin_test = "test") by reflexivity.
  split; [exact H1 |]. split; [exact H2 |].
  exact (unregister_then_fresh_register "test" store_test plugin_test 8 H1 H2).
Defined.

(** C8: [list_by_type t] lists the [PluginInfo] of exactly the entries
    whose category equals [t]: it is the sub-sequence of [list_plugins]
    with that category, an item is in it iff some entry of category [t]
    projects to it, and [Custom] categories are equal iff their labels
    are.  After registering [BackendTestPlugin] and [RouterTestPlugin],
    [list_by_type Backend] is the Backend plugin alone. *)
Theorem list_by_type_exact (t : PluginType) (s : store) :
  list_by_type t s = filter (fun i => PluginInfo.plugin_type i = t) (list_plugins s) /\
  (forall i, i ∈ list_by_type t s <->
     exists k e, s !! k = Some e /\ PluginMetadata.plugin_type (metadata e) = t /\
                 i = PluginInfo.of_metadata (metadata e)) /\
  (forall a b, plugin_type_eq (Custom a) (Custom b) = true <-> a = b) /\
  (forall now1 now2,
     list_by_type Backend
       (snd (register router_test now2 (snd (register backend_test now1 ∅)))) =
     [PluginInfo.of_metadata (PluginMetadata.new "backend-test" "1.0.0" Backend now1)]).
Proof.
  assert (Hfil : list_by_type t s =
                 filter (fun i => PluginInfo.plugin_type i = t) (list_plugins s)).
  { unfold list_by_type, list_plugins. generalize (values s) as l.
    induction l as [| e l IH]; [done |].
    rewrite fmap_cons, !filter_cons.
    cbn [PluginInfo.plugin_type PluginInfo.of_metadata].
    do 2 case_decide; rewrite ?plugin_type_eq_true in *; try congruence;
      rewrite ?fmap_cons, IH; done. }
  split_and!.
  - exact Hfil.
  - intros i. rewrite Hfil, list_elem_of_filter, elem_of_list_plugins. split.
    + intros [Ht (k & e & Hk & ->)]. by exists k, e.
    + intros (k & e & Hk & Ht & ->). split; [done |]. by exists k, e.
  - intros a b. rewrite plugin_type_eq_true. split; congruence.
  - intros now1 now2. vm_compute. reflexivity.
Qed.

(** C9: [load_plugins_from_dir] always returns [Ok]: [0] when the path
    does not exist or [read_dir] fails, and otherwise the number of
    readable entries whose extension is [so], [dll] or [dylib]; the
    manager (hence the registry) comes back unchanged and no plugin hook
    is awaited. *)
Theorem load_plugins_from_dir_counts (fs : Fs) (dir : string) (m : PluginManager) :
  (dir_exists (fs dir) = false -> load_plugins_from_dir fs dir m = (Ok 0%nat, m)) /\
  (dir_read (fs dir) = None -> load_plugins_from_dir fs dir m = (Ok 0%nat, m)) /\
  (forall entries, dir_exists (fs dir) = true -> dir_read (fs dir) = Some entries ->
     load_plugins_from_dir fs dir m =
       (Ok (List.length (filter (fun f => is_native_lib f = true) (flatten_entries entries))), m)) /\
  manager_step (MLoadPluginsFromDir fs dir) m =
    (RCount (fst (load_plugins_from_dir fs dir m)), m, []).
Proof.
  assert (Hloop : forall l k,
    count_loop l k = (k + List.length (filter (fun f => is_native_lib f = true) l))%nat).
  { induction l as [| f l IH]; intros k; simpl; [lia |].
    rewrite filter_cons. destruct (is_native_lib f); simpl; rewrite IH; lia. }
  unfold load_plugins_from_dir. split_and!.
  - intros H. by rewrite H.
  - intros H. rewrite H. by destruct (dir_exists (fs dir)).
  - intros entries H1 H2. rewrite H1, H2. simpl. by rewrite Hloop.
  - cbn [manager_step]. unfold load_plugins_from_dir.
    destruct (dir_exists (fs dir)); simpl; [| done].
    by destruct (dir_read (fs dir)).
Qed.

(** A directory [/plugins] with a readable [libmodel.so], a [README.md],
    an unreadable entry, a [router.dll] and a [.so] dotfile; every other
    path is missing. *)
Definition fs_example : Fs := fun p =>
  if String.eqb p "/plugins"
  then {| dir_exists := true;
          dir_read := Some [Some "libmodel.so"; Some "README.md"; None;
                            Some "router.dll"; Some ".so"] |}
  else {| dir_exists := false; dir_read := None |}.

Lemma load_plugins_from_dir_counts_witness :
  load_plugins_from_dir fs_example "/missing" manager_new = (Ok 0%nat, manager_new) /\
  load_plugins_from_dir fs_example "/plugins" manager_new = (Ok 2%nat, manager_new).
Proof.
  pose proof (load_plugins_from_dir_counts fs_example "/missing" manager_new)
    as [Hmissing _].
  pose proof (load_plugins_from_dir_counts fs_example "/plugins" manager_new)
    as (_ & _ & Hok & _).
  split.
  - apply Hmissing. reflexivity.
  - rewrite (Hok [Some "libmodel.so"; Some "README.md"; None;
                  Some "router.dll"; Some ".so"]) by reflexivity.
    vm_compute. reflexivity.
Defined.

(** ** Lifecycle hooks *)

(** The three plugins of the lifecycle scenario: [B]'s [initialize]
    reports an error, [A]'s and [C]'s succeed. *)
Definition error_B : AuriaError := ExecutionError "B failed".

Definition plugin_A : Plugin.t :=
  {| Plugin.name := "A"; Plugin.version := "1.0.0"; Plugin.plugin_type := Backend;
     Plugin.initialize := Ok tt; Plugin.shutdown := Ok tt |}.
Definition plugin_B : Plugin.t :=
  {| Plugin.name := "B"; Plugin.version := "1.0.0"; Plugin.plugin_type := Router;
     Plugin.initialize := Err error_B; Plugin.shutdown := Ok tt |}.
Definition plugin_C : Plugin.t :=
  {| Plugin.name := "C"; Plugin.version := "1.0.0"; Plugin.plugin_type := Storage;
     Plugin.initialize := Ok tt; Plugin.shutdown := Ok tt |}.

(** A manager after [register_plugin] of [A], [B] and [C], in order. *)
Definition manager_ABC : PluginManager :=
  let m1 := (manager_step (MRegisterPlugin plugin_A 1) manager_new).1.2 in
  let m2 := (manager_step (MRegisterPlugin plugin_B 2) m1).1.2 in
  (manager_step (MRegisterPlugin plugin_C 3) m2).1.2.

(** C2, as stated, fails: on the manager holding [A], [B], [C], no call
    of the manager awaits [A]'s and then [B]'s [initialize] and returns
    [B]'s error; there is no [initialize_all] to do it. *)
Lemma initialize_all_scenario_unreachable :
  ~ exists c : ManagerCall,
      (manager_step c manager_ABC).2 = [CallInitialize "A"; CallInitialize "B"] /\
      (manager_step c manager_ABC).1.1 = RUnit (Err error_B).
Proof.
  intros [c [Hhooks _]]. rewrite manager_step_hooks_nil in Hhooks. discriminate.
Qed.

(** C2, amended: [PluginManager] has no [initialize_all] or
    [shutdown_all]; [PluginEntry] keeps metadata only, and no call of
    the manager or of its registry awaits any plugin's [initialize] or
    [shutdown]. *)
Theorem manager_calls_await_no_hook (c : ManagerCall) (m : PluginManager) :
  (manager_step c m).2 = [] /\
  forall n, (CallInitialize n ∉ (manager_step c m).2) /\ (CallShutdown n ∉ (manager_step c m).2).
Proof.
  rewrite manager_step_hooks_nil. split; [done |].
  intros n. split; apply not_elem_of_nil.
Qed.

(** ** Concurrent registration *)

(** A [register] call, not yet started, for a plugin named ["test"]. *)
Definition racer (version : string) (now : N) : Interleaving.Thread :=
  {| Interleaving.plugin :=
       {| Plugin.name := "test"; Plugin.version := version;
          Plugin.plugin_type := Custom "test";
          Plugin.initialize := Ok tt; Plugin.shutdown := Ok tt |};
     Interleaving.now := now;
     Interleaving.phase := Interleaving.Start |}.

(** C3: on an empty registry, two [register] calls for the name
    ["test"] whose read guards both run before either write guard both
    return [Ok(())]; the second insert replaces the first entry. *)
Theorem register_race_both_succeed :
  let '(ts, s) :=
    Interleaving.run [0%nat; 1%nat; 0%nat; 1%nat]
      [racer "1.0.0" 1; racer "2.0.0" 2] ∅ in
  Interleaving.phase <$> ts =
    [Interleaving.Done (Ok tt); Interleaving.Done (Ok tt)] /\
  get_metadata "test" s = Some (PluginMetadata.new "test" "2.0.0" (Custom "test") 2) /\
  size s = 1%nat.
Proof. vm_compute. split_and!; reflexivity. Qed.

(** ** Further properties of the registry and the manager *)

(** A caller's sequence of manager calls, awaited one after another. *)
Fixpoint run_calls (cs : list ManagerCall) (m : PluginManager)
    : list ManagerRet * PluginManager :=
  match cs with
  | [] => ([], m)
  | c :: cs' =>
      let '(r, m', _) := manager_step c m in
      let '(rs, m'') := run_calls cs' m' in (r :: rs, m'')
  end.

(** [BackendPlugin], [RouterPlugin] and [MiddlewarePlugin] of [lib.rs]. *)
Definition backend_plugin : Plugin.t :=
  {| Plugin.name := "custom-backend"; Plugin.version := "1.0.0";
     Plugin.plugin_type := Backend; Plugin.initialize := Ok tt; Plugin.shutdown := Ok tt |}.
Definition router_plugin : Plugin.t :=
  {| Plugin.name := "custom-router"; Plugin.version := "1.0.0";
     Plugin.plugin_type := Router; Plugin.initialize := Ok tt; Plugin.shutdown := Ok tt |}.
Definition middleware_plugin : Plugin.t :=
  {| Plugin.name := "custom-middleware"; Plugin.version := "1.0.0";
     Plugin.plugin_type := Middleware; Plugin.initialize := Ok tt; Plugin.shutdown := Ok tt |}.

Lemma names_of_insert_fresh (n : string) (e : PluginEntry) (s : store) :
  s !! n = None ->
  PluginInfo.name <$> list_plugins (<[n := e]> s) ≡ₚ
  PluginMetadata.name (metadata e) :: (PluginInfo.name <$> list_plugins s).
Proof.
  intros Hn. unfold list_plugins, values.
  rewrite (map_to_list_insert s n e Hn). done.
Qed.

(** [list_plugins] has one item per entry of the map. *)
Theorem list_plugins_length (s : store) :
  List.length (list_plugins s) = size s.
Proof.
  unfold list_plugins, values. rewrite !length_fmap. apply length_map_to_list.
Qed.

(** [register] of a fresh name adds exactly one item to [list_plugins];
    a rejected [register] leaves the count as it was. *)
Theorem register_list_plugins_length (p : Plugin.t) (now : N) (s : store) :
  List.length (list_plugins (snd (register p now s))) =
    (if register_check (Plugin.name p) s then size s else S (size s)).
Proof.
  rewrite list_plugins_length. unfold register, register_check.
  destruct (s !! Plugin.name p) eqn:E; simpl; [done |].
  unfold register_insert. by rewrite map_size_insert_None.
Qed.

(** [unregister] of a present name removes exactly one item from
    [list_plugins]; of an absent name it removes nothing. *)
Theorem unregister_list_plugins_length (n : string) (s : store) :
  List.length (list_plugins (snd (unregister n s))) =
    (if register_check n s then pred (size s) else size s).
Proof.
  rewrite list_plugins_length. unfold unregister, register_check. simpl.
  destruct (s !! n) eqn:E.
  - rewrite map_size_delete_Some by eauto. lia.
  - by rewrite delete_id.
Qed.

(** [disable] then [enable] of a present name flips [is_enabled] to
    [false] then to [true] (the sequence of [test_plugin_enable_disable]);
    the other names' flags and every other metadata field stay as they
    were. *)
Theorem enable_disable_effect (n : string) (s : store) :
  is_Some (s !! n) ->
  is_enabled n (snd (disable n s)) = false /\
  is_enabled n (snd (enable n s)) = true /\
  get_metadata n (snd (disable n s)) = PluginMetadata.set_enabled false <$> get_metadata n s /\
  get_metadata n (snd (enable n s)) = PluginMetadata.set_enabled true <$> get_metadata n s /\
  (forall n', n' <> n ->
     (snd (disable n s)) !! n' = s !! n' /\ (snd (enable n s)) !! n' = s !! n').
Proof.
  intros [e He]. unfold is_enabled, enable, disable, get_metadata. rewrite He. simpl.
  rewrite !lookup_insert_eq. split_and!; try done.
  intros n' Hn'. by rewrite !lookup_insert_ne by congruence.
Qed.

Lemma enable_disable_effect_witness :
  is_Some (store_test !! "test") /\
  is_enabled "test" (snd (disable "test" store_test)) = false /\
  is_enabled "test" (snd (enable "test" store_test)) = true /\
  get_metadata "test" (snd (disable "test" store_test)) =
    PluginMetadata.set_enabled false <$> get_metadata "test" store_test /\
  get_metadata "test" (snd (enable "test" store_test)) =
    PluginMetadata.set_enabled true <$> get_metadata "test" store_test /\
  (forall n', n' <> "test" ->
     (snd (disable "test" store_test)) !! n' = store_test !! n' /\
     (snd (enable "test" store_test)) !! n' = store_test !! n').
Proof.
  assert (H : is_Some (store_test !! "test")) by (vm_compute; eauto).
  split; [exact H |]. exact (enable_disable_effect "test" store_test H).
Defined.



(** [unregister] undoes a successful [register]: it returns the metadata
    [register] built and gives back the store from before. *)
Theorem register_unregister_roundtrip (p : Plugin.t) (now : N) (s : store) :
  s !! Plugin.name p = None ->
  unregister (Plugin.name p) (snd (register p now s)) =
    (Some (PluginMetadata.new (Plugin.name p) (Plugin.version p) (Plugin.plugin_type p) now), s).
Proof.
  intros Hn. unfold register, register_check. rewrite Hn. simpl.
  unfold unregister, register_insert. rewrite lookup_insert_eq. simpl.
  rewrite delete_insert_id by done. done.
Qed.

Lemma register_unregister_roundtrip_witness :
  store_test !! Plugin.name backend_plugin = None /\
  unregister "custom-backend" (snd (register backend_plugin 5 store_test)) =
    (Some (PluginMetadata.new "custom-backend" "1.0.0" Backend 5), store_test).
Proof.
  assert (H : store_test !! Plugin.name backend_plugin = None) by reflexivity.
  split; [exact H |]. exact (register_unregister_roundtrip backend_plugin 5 store_test H).
Defined.

(** [get_plugin_info n] finds an item exactly when [list_plugins] has an
    item named [n], and it is that item (in any store whose keys are
    their entries' names, as every reachable store is). *)
Theorem get_plugin_info_in_list_plugins (n : string) (i : PluginInfo.t) (m : PluginManager) :
  store_wf (registry m) ->
  ((manager_step (MGetPluginInfo n) m).1.1 = RInfo (Some i) <->
   i ∈ list_plugins (registry m) /\ PluginInfo.name i = n).
Proof.
  intros Hwf. cbn [manager_step fst]. unfold get_metadata. split.
  - destruct (registry m !! n) as [e|] eqn:He; simpl; intros H; [| discriminate].
    inversion H; subst i. split.
    + apply elem_of_list_plugins. eauto.
    + simpl. exact (Hwf n e He).
  - intros [Hi Hn]. apply elem_of_list_plugins in Hi as (k & e & Hk & ->).
    simpl in Hn. rewrite (Hwf k e Hk) in Hn. subst k. by rewrite Hk.
Qed.

Lemma get_plugin_info_in_list_plugins_witness :
  store_wf (registry (manager_step (MRegisterPlugin plugin_test 7) manager_new).1.2) /\
  ((manager_step (MGetPluginInfo "test")
      (manager_step (MRegisterPlugin plugin_test 7) manager_new).1.2).1.1 =
     RInfo (Some (PluginInfo.of_metadata (PluginMetadata.new "test" "1.0.0" (Custom "test") 7))) <->
   PluginInfo.of_metadata (PluginMetadata.new "test" "1.0.0" (Custom "test") 7)
     ∈ list_plugins (registry (manager_step (MRegisterPlugin plugin_test 7) manager_new).1.2) /\
   PluginInfo.name (PluginInfo.of_metadata (PluginMetadata.new "test" "1.0.0" (Custom "test") 7)) = "test").
Proof.
  assert (H : store_wf (registry (manager_step (MRegisterPlugin plugin_test 7) manager_new).1.2))
    by (apply manager_step_wf, store_wf_empty).
  split; [exact H |]. exact (get_plugin_info_in_list_plugins "test" _ _ H).
Defined.

Lemma run_calls_wf (cs : list ManagerCall) (m : PluginManager) :
  store_wf (registry m) -> store_wf (registry (run_calls cs m).2).
Proof.
  revert m. induction cs as [| c cs IH]; intros m Hwf; simpl; [done |].
  pose proof (manager_step_wf c m Hwf) as Hc.
  destruct (manager_step c m) as [[r m'] hs]. simpl in Hc.
  pose proof (IH m' Hc) as Hr. destruct (run_calls cs m') as [rs m'']. exact Hr.
Qed.

(** In every manager reached from [PluginManager::new] by any sequence
    of calls, each registry key is the [name] recorded in its entry's
    metadata. *)
Theorem reachable_store_wf (cs : list ManagerCall) :
  store_wf (registry (run_calls cs manager_new).2).
Proof. apply run_calls_wf, store_wf_empty. Qed.

(** Registering plugins with pairwise distinct names, none of them
    already present, succeeds for every call, and afterwards the names
    listed by [list_plugins] are the earlier ones plus exactly the new
    ones (as a multiset: the map's iteration order is unspecified). *)
Theorem register_distinct_names (ps : list (Plugin.t * N)) (m : PluginManager) :
  NoDup ((fun pn => Plugin.name pn.1) <$> ps) ->
  (forall pn, pn ∈ ps -> registry m !! Plugin.name pn.1 = None) ->
  let '(rs, m') := run_calls ((fun pn => MRegisterPlugin pn.1 pn.2) <$> ps) m in
  rs = (fun _ => RUnit (Ok tt)) <$> ps /\
  PluginInfo.name <$> list_plugins (registry m') ≡ₚ
    (PluginInfo.name <$> list_plugins (registry m)) ++ ((fun pn => Plugin.name pn.1) <$> ps).
Proof.
  revert m. induction ps as [| [p now] ps IH]; intros m Hnd Hfresh.
  - simpl. split; [done |]. by rewrite app_nil_r.
  - rewrite fmap_cons in Hnd. apply NoDup_cons in Hnd as [Hnotin Hnd]. simpl in Hnotin.
    assert (Hp : registry m !! Plugin.name p = None)
      by (apply (Hfresh (p, now)); left).
    assert (Hstep : manager_step (MRegisterPlugin p now) m =
      (RUnit (Ok tt), with_registry m (register_insert p now (registry m)), [])).
    { cbn [manager_step]. unfold register, register_check. by rewrite Hp. }
    rewrite fmap_cons. cbn [run_calls fst snd]. rewrite Hstep.
    specialize (IH (with_registry m (register_insert p now (registry m))) Hnd).
    destruct (run_calls _ _) as [rs m'] eqn:Hrun.
    destruct IH as [Hrs Hperm].
    { intros pn Hin. simpl. unfold register_insert.
      rewrite lookup_insert_ne.
      - apply Hfresh. by right.
      - intros Heq. apply Hnotin. rewrite Heq. apply list_elem_of_fmap. eauto. }
    split; [by rewrite Hrs |].
    rewrite Hperm. cbn [registry with_registry]. unfold register_insert.
    rewrite (names_of_insert_fresh _ _ _ Hp). cbn [metadata].
    rewrite fmap_cons. simpl.
    apply Permutation_middle.
Qed.

Lemma register_distinct_names_witness :
  NoDup ((fun pn => Plugin.name pn.1) <$>
           [(backend_plugin, 1%N); (router_plugin, 2%N); (middleware_plugin, 3%N)]) /\
  (forall pn, pn ∈ [(backend_plugin, 1%N); (router_plugin, 2%N); (middleware_plugin, 3%N)] ->
     registry manager_new !! Plugin.name pn.1 = None) /\
  let '(rs, m') := run_calls ((fun pn => MRegisterPlugin pn.1 pn.2) <$>
      [(backend_plugin, 1%N); (router_plugin, 2%N); (middleware_plugin, 3%N)]) manager_new in
  rs = (fun _ => RUnit (Ok tt)) <$>
         [(backend_plugin, 1%N); (router_plugin, 2%N); (middleware_plugin, 3%N)] /\
  PluginInfo.name <$> list_plugins (registry m') ≡ₚ
    (PluginInfo.name <$> list_plugins (registry manager_new)) ++
    ((fun pn => Plugin.name pn.1) <$>
       [(backend_plugin, 1%N); (router_plugin, 2%N); (middleware_plugin, 3%N)]).
Proof.
  assert (H1 : NoDup ((fun pn => Plugin.name pn.1) <$>
           [(backend_plugin, 1%N); (router_plugin, 2%N); (middleware_plugin, 3%N)]))
    by (simpl; repeat constructor; set_solver).
  assert (H2 : forall pn, pn ∈ [(backend_plugin, 1%N); (router_plugin, 2%N); (middleware_plugin, 3%N)] ->
     registry manager_new !! Plugin.name pn.1 = None) by (intros; reflexivity).
  split; [exact H1 |]. split; [exact H2 |].
  exact (register_distinct_names _ manager_new H1 H2).
Defined.

(** [PluginConfig] is inert: no manager call changes it, and no call's
    result or effect on the registry depends on it (in particular
    [load_plugins_from_dir] does not consult [plugin_dirs]). *)
Theorem manager_config_inert (c : ManagerCall) (m : PluginManager) (cfg : PluginConfig) :
  config (manager_step c m).1.2 = config m /\
  (manager_step c {| registry := registry m; config := cfg |}).1.1 = (manager_step c m).1.1 /\
  registry (manager_step c {| registry := registry m; config := cfg |}).1.2 =
    registry (manager_step c m).1.2.
Proof.
  destruct c; cbn [manager_step registry config];
    try (unfold load_plugins_from_dir;
         destruct (dir_exists (fs dir)); [destruct (dir_read (fs dir)) |]; simpl);
    repeat match goal with |- context [match ?x with (_, _) => _ end] => destruct x end;
    simpl; auto.
Qed.

(** [load_plugins_from_dir] always returns [Ok], with a count no larger
    than the number of readable entries of the directory listing. *)
Theorem load_plugins_from_dir_bound (fs : Fs) (dir : string) (m : PluginManager) :
  exists k, fst (load_plugins_from_dir fs dir m) = Ok k /\
    (k <= List.length (flatten_entries (default [] (dir_read (fs dir)))))%nat.
Proof.
  destruct (load_plugins_from_dir_counts fs dir m) as (Hex & Hrd & Hok & _).
  destruct (dir_exists (fs dir)) eqn:E1.
  - destruct (dir_read (fs dir)) as [es|] eqn:E2.
    + rewrite (Hok es eq_refl eq_refl). eexists. split; [done |]. simpl.
      apply length_filter.
    + rewrite (Hrd eq_refl). exists 0%nat. split; [done | lia].
  - rewrite (Hex eq_refl). exists 0%nat. split; [done | lia].
Qed.

Lemma rsplit_dot_Some (s b a : string) :
  rsplit_dot s = Some (b, a) -> s = String.append b (String "." a).
Proof.
  revert b a. induction s as [| c s IH]; intros b a H; simpl in H; [discriminate |].
  destruct (rsplit_dot s) as [[b' a']|] eqn:E.
  - injection H as <- <-. by rewrite (IH b' a' eq_refl).
  - destruct (Ascii.eqb c ".") eqn:Ec; [| discriminate].
    injection H as <- <-. apply Ascii.eqb_eq in Ec. by subst.
Qed.

Lemma rsplit_dot_append (b e : string) :
  rsplit_dot e = None -> rsplit_dot (String.append b (String "." e)) = Some (b, e).
Proof.
  intros He. induction b as [| c b IH]; simpl.
  - by rewrite He.
  - by rewrite IH.
Qed.

(** [load_plugins_from_dir] counts a file name exactly when it is a
    non-empty stem, a dot, and one of [so], [dll], [dylib] (the stem may
    itself contain dots; the match is case-sensitive). *)
Theorem is_native_lib_iff (f : string) :
  is_native_lib f = true <->
  exists b e, b <> "" /\ e ∈ ["so"; "dll"; "dylib"] /\ f = String.append b (String "." e).
Proof.
  unfold is_native_lib, file_extension. split.
  - destruct (String.eqb f "..") eqn:E0; [discriminate |].
    destruct (rsplit_dot f) as [[b a]|] eqn:E1; [| discriminate].
    destruct (String.eqb b "") eqn:E2; [discriminate |].
    intros Ha. exists b, a. split_and!.
    + intros ->. discriminate.
    + apply orb_true_iff in Ha as [Ha | Ha]; [apply orb_true_iff in Ha as [Ha | Ha] |];
        apply String.eqb_eq in Ha; subst; set_solver.
    + by apply rsplit_dot_Some.
  - intros (b & e & Hb & He & ->).
    assert (Hdot : rsplit_dot e = None) by
      (apply list_elem_of_In in He; simpl in He;
       destruct He as [<- | [<- | [<- | []]]]; reflexivity).
    assert (Hne : String.eqb (String.append b (String "." e)) ".." = false).
    { apply String.eqb_neq. destruct b as [| c b']; [done |]. simpl. intros H.
      injection H as Hc Hrest. destruct b' as [| c' b''].
      - simpl in Hrest. injection Hrest as Hrest. subst e. set_solver.
      - simpl in Hrest. injection Hrest as _ Hrest. by destruct b''. }
    rewrite Hne, (rsplit_dot_append b e Hdot).
    destruct (String.eqb b "") eqn:Hb'; [apply String.eqb_eq in Hb'; contradiction |].
    apply list_elem_of_In in He. simpl in He.
    destruct He as [<- | [<- | [<- | []]]]; reflexivity.
Qed.

Section RaceWinner.
Import Interleaving.

Variable n : string.

Definition has_ok (ts : list Thread) : Prop :=
  exists j t, ts !! j = Some t /\ phase t = Done (Ok tt).

Definition race_inv (ts : list Thread) (s : store) : Prop :=
  (forall j t, ts !! j = Some t -> Plugin.name (plugin t) = n) /\
  (is_Some (s !! n) -> has_ok ts) /\
  (forall j t e, ts !! j = Some t -> phase t = Done (Err e) -> has_ok ts).

Lemma has_ok_insert (ts : list Thread) (i : nat) (t t' : Thread) :
  ts !! i = Some t -> phase t <> Done (Ok tt) -> has_ok ts -> has_ok (<[i := t']> ts).
Proof.
  intros Hi Hnot (j & u & Hj & Hu).
  destruct (decide (i = j)) as [-> | Hij]; [congruence |].
  exists j, u. by rewrite list_lookup_insert_ne.
Qed.

Lemma race_inv_step (ts : list Thread) (s : store) (i : nat) (t : Thread) :
  race_inv ts s -> ts !! i = Some t ->
  race_inv (<[i := (step t s).1]> ts) (step t s).2.
Proof.
  intros (Hname & Hpres & Herr) Hi.
  assert (Hlt : (i < List.length ts)%nat) by (eapply lookup_lt_Some; eauto).
  assert (Hn : Plugin.name (plugin t) = n) by eauto.
  assert (Hnames : forall j u, <[i := (step t s).1]> ts !! j = Some u ->
                     Plugin.name (plugin u) = n).
  { intros j u Hj. destruct (decide (i = j)) as [-> | Hij].
    - rewrite list_lookup_insert_eq in Hj by done. injection Hj as <-.
      unfold step. destruct (phase t); [destruct (register_check _ _) |..]; simpl; done.
    - rewrite list_lookup_insert_ne in Hj by done. eauto. }
  unfold step. rewrite Hn. destruct (phase t) as [| | r] eqn:Hph.
  - destruct (register_check n s) eqn:Hc; simpl.
    + assert (Hok : has_ok ts).
      { apply Hpres. unfold register_check in Hc. destruct (s !! n); [eauto | discriminate]. }
      assert (Hok' : has_ok (<[i := with_phase t (Done (Err (ExecutionError (already_registered_msg n))))]> ts))
        by (apply (has_ok_insert ts i t); [exact Hi | congruence | exact Hok]).
      refine (conj _ (conj _ _)); [| by intros _ | by intros ? ? ? ? ?].
      intros j u Hj. apply (Hnames j u). unfold step. by rewrite Hph, Hn, Hc.
    + assert (Hok : forall P : Prop, (P -> has_ok ts) -> P ->
                has_ok (<[i := with_phase t Checked]> ts)).
      { intros P HP Hp. apply (has_ok_insert ts i t); [exact Hi | congruence | by apply HP]. }
      refine (conj _ (conj _ _)).
      * intros j u Hj. apply (Hnames j u). unfold step. by rewrite Hph, Hn, Hc.
      * intros Hs. by apply (Hok _ Hpres).
      * intros j u e Hj Hu. destruct (decide (i = j)) as [-> | Hij].
        -- rewrite list_lookup_insert_eq in Hj by done. injection Hj as <-. discriminate.
        -- rewrite list_lookup_insert_ne in Hj by done.
           apply (Hok (exists j u e, ts !! j = Some u /\ phase u = Done (Err e))).
           ++ intros (j' & u' & e' & Hj' & Hu'). eauto.
           ++ eauto.
  - simpl. assert (Hok : has_ok (<[i := with_phase t (Done (Ok tt))]> ts)).
    { exists i, (with_phase t (Done (Ok tt))). by rewrite list_lookup_insert_eq. }
    refine (conj _ (conj _ _)); [| by intros _ | by intros ? ? ? ? ?].
    intros j u Hj. apply (Hnames j u). unfold step. rewrite Hph. exact Hj.
  - simpl. rewrite list_insert_id by done. exact (conj Hname (conj Hpres Herr)).
Qed.

Lemma race_inv_run (sched : list nat) (ts : list Thread) (s : store) :
  race_inv ts s -> let '(ts', s') := run sched ts s in race_inv ts' s'.
Proof.
  revert ts s. induction sched as [| i sched IH]; intros ts s Hinv; simpl; [done |].
  destruct (ts !! i) as [t|] eqn:Hi; [| by apply IH].
  pose proof (race_inv_step ts s i t Hinv Hi) as Hstep.
  destruct (step t s) as [t' s']. by apply IH.
Qed.
End RaceWinner.

(** Whatever the schedule, when [register] calls for one name start on
    a store without that name, a call that returned the "already
    registered" error always has a concurrent call that returned
    [Ok(())], and once the name is in the store some call returned
    [Ok(())]: the calls never all fail. *)
Theorem register_race_failure_has_winner (n : string) (ts : list Interleaving.Thread)
    (s : store) (sched : list nat) :
  (forall j t, ts !! j = Some t ->
     Plugin.name (Interleaving.plugin t) = n /\ Interleaving.phase t = Interleaving.Start) ->
  s !! n = None ->
  let '(ts', s') := Interleaving.run sched ts s in
  (forall j t e, ts' !! j = Some t -> Interleaving.phase t = Interleaving.Done (Err e) ->
     has_ok ts') /\
  (is_Some (s' !! n) -> has_ok ts').
Proof.
  intros Hts Hs.
  assert (Hinv : race_inv n ts s).
  { split_and!.
    - intros j t Hj. by apply (Hts j t Hj).
    - rewrite Hs. by intros [? ?].
    - intros j t e Hj Hph. destruct (Hts j t Hj) as [_ Hst]. congruence. }
  pose proof (race_inv_run n sched ts s Hinv) as Hrun.
  destruct (Interleaving.run sched ts s) as [ts' s'].
  destruct Hrun as (_ & Hpres & Herr). split; [exact Herr | exact Hpres].
Qed.

Lemma register_race_failure_has_winner_witness :
  (forall j t, [racer "1.0.0" 1; racer "2.0.0" 2] !! j = Some t ->
     Plugin.name (Interleaving.plugin t) = "test" /\ Interleaving.phase t = Interleaving.Start) /\
  (∅ : store) !! "test" = None /\
  let '(ts', s') := Interleaving.run [0%nat; 0%nat; 1%nat; 1%nat]
                      [racer "1.0.0" 1; racer "2.0.0" 2] ∅ in
  (forall j t e, ts' !! j = Some t -> Interleaving.phase t = Interleaving.Done (Err e) ->
     has_ok ts') /\
  (is_Some (s' !! "test") -> has_ok ts').
Proof.
  assert (H1 : forall j t, [racer "1.0.0" 1; racer "2.0.0" 2] !! j = Some t ->
     Plugin.name (Interleaving.plugin t) = "test" /\ Interleaving.phase t = Interleaving.Start).
  { intros j t Hj. destruct j as [| [| j]]; simpl in Hj; try discriminate;
      injection Hj as <-; split; reflexivity. }
  assert (H2 : (∅ : store) !! "test" = None) by reflexivity.
  split; [exact H1 |]. split; [exact H2 |].
  exact (register_race_failure_has_winner "test" _ ∅ [0%nat; 0%nat; 1%nat; 1%nat] H1 H2).
Defined.
